(** * The fuzzy-controller harness of the asteroids game

    A shallow embedding of [asteroids/fuzzy_asteroids.py]: the classes
    [FuzzyAsteroidGame] and [TrainerEnvironment] and the function
    [evaluate_controller].  The base class [AsteroidGame], the mediator
    [SpaceShip] and the controllers live in other modules; what the harness
    uses of them is taken as a parameter of the development. *)

From Stdlib Require Import ZArith Floats.PrimFloat.
From stdpp Require Import gmap strings list fin_maps.

#[local] Set Warnings "-register-all".
Open Scope Z_scope.

(** ** Python values *)

(** The dynamically typed values the harness handles: settings, sprite
    states and the entries of the state dictionary. *)
Inductive PyVal : Type :=
  | VNone
  | VBool (b : bool)
  | VInt (n : Z)
  | VFloat (x : float)
  | VStr (s : string)
  | VTuple (items : list PyVal).

(** The exceptions that can cross the harness.  [BaseException] stands for
    the ones that are not subclasses of [Exception] (KeyboardInterrupt,
    SystemExit), which an [except Exception] clause lets through. *)
Inductive PyExn : Type :=
  | ValueError (msg : string)
  | TypeError (msg : string)
  | AttributeError (msg : string)
  | Exception (name : string)
  | BaseException (name : string).

Definition is_Exception (e : PyExn) : bool :=
  match e with
  | BaseException _ => false
  | _ => true
  end.

(** The outcome of a call: a value or a raised exception. *)
Inductive Res (A : Type) : Type :=
  | Ok (a : A)
  | Raise (e : PyExn).
Arguments Ok {A} a.
Arguments Raise {A} e.

(** A dictionary with string keys; a heap of dictionaries, for the settings
    dictionary the caller shares with the constructors. *)
Abbreviation Dict := (gmap string PyVal).
Abbreviation loc := positive.
Abbreviation Heap := (gmap loc Dict).

(** ** The objects of the engine and of the controller module *)

(** A sprite (asteroid or bullet); the harness reads its [state] property. *)
Record Sprite : Type := { state : PyVal }.

(** The player's ship in the engine: [game.ShipSprite]. *)
Module ShipSprite.
Record t : Type := { turn_rate : PyVal; thrust : PyVal; body : PyVal }.
End ShipSprite.

(** The intermediary handed to the controller: [fuzzy_controller.SpaceShip].
    The harness reads back [turn_rate], [thrust] and [fire_bullet]. *)
Module SpaceShip.
Record t : Type :=
  { turn_rate : PyVal; thrust : PyVal; fire_bullet : bool; view : PyVal }.
End SpaceShip.

(** The attributes of the base class [game.AsteroidGame] that the harness
    touches.  [size] is what [get_size()] returns, [frame_count] is
    [score.frame_count], [bullet_list] holds the bullets alive. *)
Module AsteroidGame.
Record t : Type :=
  { frame_count : Z;
    size : PyVal;
    asteroid_list : list Sprite;
    bullet_list : list Sprite;
    player_sprite : ShipSprite.t;
    active_key_presses : list Z;
    internals : PyVal }.

Definition set_player_sprite (p : ShipSprite.t) (b : t) : t :=
  {| frame_count := frame_count b; size := size b;
     asteroid_list := asteroid_list b; bullet_list := bullet_list b;
     player_sprite := p; active_key_presses := active_key_presses b;
     internals := internals b |}.

Definition set_bullet_list (bs : list Sprite) (b : t) : t :=
  {| frame_count := frame_count b; size := size b;
     asteroid_list := asteroid_list b; bullet_list := bs;
     player_sprite := player_sprite b;
     active_key_presses := active_key_presses b;
     internals := internals b |}.
End AsteroidGame.

(** A bound method [actions(ship, data)]: called in a state of the
    controller, it leaves the controller and the ship it is given in new
    states, and returns normally or raises. *)
Abbreviation Method :=
  (PyVal -> SpaceShip.t -> Dict -> PyVal * SpaceShip.t * option PyExn).

(** A controller object: its own attributes [cstate], its class name, and
    what its code does when the harness touches it, each as a function of
    the state the object is in that also gives the state it is left in.
    [truth] is [bool(controller)]: Python runs [__bool__] or [__len__],
    which may answer either way, change the object or raise; an object that
    defines neither answers [True] and stays as it is.  [actions] is the
    lookup of the attribute [actions]: it finds a method, finds nothing
    (AttributeError), or raises something else, as a property can; the
    attribute may be there in one state and gone in another.  What a
    controller does outside its own object and the ship it is given is not
    part of the model. *)
Record Controller : Type :=
  { cstate : PyVal;
    cls : string;
    truth : PyVal -> Res bool * PyVal;
    actions : PyVal -> Res (option Method) * PyVal }.

Definition set_cstate (st : PyVal) (c : Controller) : Controller :=
  {| cstate := st; cls := cls c; truth := truth c; actions := actions c |}.

(** [bool(controller)], where the argument may be [None]: the answer or
    the exception, and the controller as the test left it. *)
Definition py_bool (c : option Controller) : Res bool * option Controller :=
  match c with
  | None => (Ok false, None)
  | Some c =>
      let '(answer, st) := truth c (cstate c) in
      (answer, Some (set_cstate st c))
  end.

(** [hasattr(controller, "actions")]: [True] when the lookup finds the
    attribute, [False] when it raises AttributeError; any other exception
    of the lookup goes through. *)
Definition hasattr_actions (c : option Controller)
  : Res bool * option Controller :=
  match c with
  | None => (Ok false, None)
  | Some c =>
      match actions c (cstate c) with
      | (Ok (Some _), st) => (Ok true, Some (set_cstate st c))
      | (Ok None, st) => (Ok false, Some (set_cstate st c))
      | (Raise e, st) => (Raise e, Some (set_cstate st c))
      end
  end.

(** An instance of [FuzzyAsteroidGame]: the two attributes the class adds
    and the state of the base class. *)
Record Game : Type :=
  { controller : option Controller;
    time_elapsed : PyVal;
    base : AsteroidGame.t }.

(** What [print] wrote, most recent first. *)
Inductive Output : Type :=
  | PrintIgnored (e : PyExn) (controller_class : string)
  | PrintTime (micro_seconds : float).

(** The state a method of the game runs in: the object itself, the console
    and the number of readings taken from the performance counter. *)
Record Machine : Type :=
  { self : Game;
    stdout : list Output;
    ticks : nat }.

Definition set_self (g : Game) (m : Machine) : Machine :=
  {| self := g; stdout := stdout m; ticks := ticks m |}.

(** ** Methods as state transformers that may raise *)

Definition M (A : Type) : Type := Machine -> Res A * Machine.

#[global] Instance M_ret : MRet M := fun A a m => (Ok a, m).

#[global] Instance M_bind : MBind M := fun A B f c m =>
  match c m with
  | (Ok a, m') => f a m'
  | (Raise e, m') => (Raise e, m')
  end.

Definition raise {A : Type} (e : PyExn) : M A := fun m => (Raise e, m).
Definition get_self : M Game := fun m => (Ok (self m), m).
Definition put_self (g : Game) : M unit := fun m => (Ok tt, set_self g m).
Definition print (o : Output) : M unit := fun m =>
  (Ok tt, {| self := self m; stdout := o :: stdout m; ticks := ticks m |}).

Definition set_controller (c : option Controller) : M unit :=
  g ← get_self;
  put_self {| controller := c; time_elapsed := time_elapsed g; base := base g |}.

Definition set_time_elapsed (t : PyVal) : M unit :=
  g ← get_self;
  put_self {| controller := controller g; time_elapsed := t; base := base g |}.

Definition set_base (b : AsteroidGame.t) : M unit :=
  g ← get_self;
  put_self {| controller := controller g; time_elapsed := time_elapsed g;
              base := b |}.

(** ** The collaborators *)

(** The methods of the base class, the constructor of the intermediary and
    the performance counter.  The base class knows nothing of the
    attributes [FuzzyAsteroidGame] adds, so its methods act on the base
    state; [run_single_game] drives the frames through the [on_update] of
    the instance it is called on. *)
Class Engine : Type :=
  { SpaceShip_init : ShipSprite.t -> SpaceShip.t;
    AsteroidGame_init : Dict -> PyVal -> AsteroidGame.t;
    AsteroidGame_on_update : float -> AsteroidGame.t -> AsteroidGame.t;
    AsteroidGame_fire_bullet : AsteroidGame.t -> AsteroidGame.t;
    run_single_game : (float -> M unit) -> M PyVal;
    perf_counter : nat -> float }.

Section Harness.
Context {E : Engine}.

(** [time.perf_counter()]: the next reading of the counter. *)
Definition read_perf_counter : M float := fun m =>
  (Ok (perf_counter (ticks m)),
   {| self := self m; stdout := stdout m; ticks := S (ticks m) |}).

(** ** FuzzyAsteroidGame *)

(** The [data] property. *)
Definition data (g : Game) : Dict :=
  let b := base g in
  <["bullets" := VTuple (state <$> AsteroidGame.asteroid_list b)]>
  (<["asteroids" := VTuple (state <$> AsteroidGame.asteroid_list b)]>
  (<["map_dimensions" := AsteroidGame.size b]>
  (<["frame" := VInt (AsteroidGame.frame_count b)]> ∅))).

(** [self.fire_bullet()], inherited from the base class. *)
Definition fire_bullet : M unit :=
  g ← get_self;
  set_base (AsteroidGame_fire_bullet (base g)).

(** The test of [if self.controller:]: it runs the truth test of the
    stored controller, which is left as the test left it. *)
Definition test_controller : M bool := fun m =>
  let '(answer, c) := py_bool (controller (self m)) in
  (answer,
   set_self {| controller := c; time_elapsed := time_elapsed (self m);
               base := base (self m) |} m).

(** [self.controller.actions(ship, self.data)]: the attribute is looked up
    in the controller as it is now, and the method found is called; the
    call mutates the controller and the ship, and the ship as the call left
    it is returned. *)
Definition call_actions (ship : SpaceShip.t) (d : Dict) : M SpaceShip.t :=
  g ← get_self;
  match controller g with
  | None => raise (AttributeError "actions")
  | Some c =>
      let '(found, st1) := actions c (cstate c) in
      set_controller (Some (set_cstate st1 c));;
      match found with
      | Raise e => raise e
      | Ok None => raise (AttributeError "actions")
      | Ok (Some act) =>
          let '(st, ship', outcome) := act st1 ship d in
          set_controller (Some (set_cstate st c));;
          match outcome with
          | Some e => raise e
          | None => mret ship'
          end
      end
  end.

Definition call_stored_controller : M unit :=
  truthy ← test_controller;
  if (truthy : bool) then
    g ← get_self;
    let ship := SpaceShip_init (AsteroidGame.player_sprite (base g)) in
    ship ← call_actions ship (data g);
    g ← get_self;
    let p := AsteroidGame.player_sprite (base g) in
    set_base (AsteroidGame.set_player_sprite
                {| ShipSprite.turn_rate := SpaceShip.turn_rate ship;
                   ShipSprite.thrust := ShipSprite.thrust p;
                   ShipSprite.body := ShipSprite.body p |} (base g));;
    g ← get_self;
    let p := AsteroidGame.player_sprite (base g) in
    set_base (AsteroidGame.set_player_sprite
                {| ShipSprite.turn_rate := ShipSprite.turn_rate p;
                   ShipSprite.thrust := SpaceShip.thrust ship;
                   ShipSprite.body := ShipSprite.body p |} (base g));;
    if SpaceShip.fire_bullet ship then fire_bullet else mret tt
  else mret tt.

Definition on_update (delta_time : float) : M unit :=
  g ← get_self;
  match AsteroidGame.active_key_presses (base g) with
  | [] => call_stored_controller
  | _ :: _ => mret tt
  end;;
  g ← get_self;
  set_base (AsteroidGame_on_update delta_time (base g)).

(** Several frames in a row, as the game loop plays them; a frame that
    raises ends the run. *)
Fixpoint frames (delta_times : list float) : M unit :=
  match delta_times with
  | [] => mret tt
  | dt :: rest => on_update dt;; frames rest
  end.

(** ** Vocabulary for the statements about a frame *)

(** The machine after the base class has advanced the simulation. *)
Definition advanced (dt : float) (m : Machine) : Machine :=
  set_self {| controller := controller (self m);
              time_elapsed := time_elapsed (self m);
              base := AsteroidGame_on_update dt (base (self m)) |} m.

(** The machine after [actions] has left the controller in state [st]. *)
Definition with_cstate (c : Controller) (st : PyVal) (m : Machine) : Machine :=
  set_self {| controller := Some (set_cstate st c);
              time_elapsed := time_elapsed (self m);
              base := base (self m) |} m.

(** The base state after the commands of [ship] are applied to it. *)
Definition commanded (ship : SpaceShip.t) (b : AsteroidGame.t)
  : AsteroidGame.t :=
  let b' :=
    AsteroidGame.set_player_sprite
      {| ShipSprite.turn_rate := SpaceShip.turn_rate ship;
         ShipSprite.thrust := SpaceShip.thrust ship;
         ShipSprite.body := ShipSprite.body (AsteroidGame.player_sprite b) |}
      b in
  if SpaceShip.fire_bullet ship then AsteroidGame_fire_bullet b' else b'.

(** The machine after the truth test has left the stored controller as
    [c]. *)
Definition with_controller (c : option Controller) (m : Machine) : Machine :=
  set_self {| controller := c;
              time_elapsed := time_elapsed (self m);
              base := base (self m) |} m.

(** In state [st] the truth test of [c] answers [True]. *)
Definition truthy_state (c : Controller) (st : PyVal) : Prop :=
  exists st', truth c st = (Ok true, st').

(** A controller none of whose own operations takes it from a state in
    which its truth test answers [True] to one in which it does not:
    neither the truth test itself, nor the lookup of [actions], nor a call
    of a method that the lookup has found. *)
Definition truth_stable (c : Controller) : Prop :=
  forall st,
    truthy_state c st ->
    truthy_state c (snd (truth c st))
    /\ truthy_state c (snd (actions c st))
    /\ (forall act st0 ship d,
          fst (actions c st0) = Ok (Some act) ->
          truthy_state c (fst (fst (act st ship d)))).

(** The controller of the game is the object [c], in a state of its own in
    which its truth test answers [True]. *)
Definition truthy_as (c : Controller) (m : Machine) : Prop :=
  exists st, controller (self m) = Some (set_cstate st c)
             /\ truthy_state c st.

(** The machine after one reading of the performance counter. *)
Definition ticked (m : Machine) : Machine :=
  {| self := self m; stdout := stdout m; ticks := S (ticks m) |}.

(** The default of [delta_time]. *)
Definition default_delta_time : float := (1 / 60)%float.

(** The class of [self.controller], as printed. *)
Definition controller_class (c : option Controller) : string :=
  match c with
  | None => "NoneType"
  | Some c => cls c
  end.

(** [try: body / except Exception as e: handler]. *)
Definition try_except_Exception {A : Type} (body : M A) (handler : PyExn -> M A)
  : M A := fun m =>
  match body m with
  | (Ok a, m') => (Ok a, m')
  | (Raise e, m') => if is_Exception e then handler e m' else (Raise e, m')
  end.

(** [try: body / finally: final]: [final] runs on every exit, and the
    outcome of [body] stands unless [final] itself raises. *)
Definition try_finally {A : Type} (body : M A) (final : M unit) : M A := fun m =>
  let '(r, m') := body m in
  match final m' with
  | (Ok _, m'') => (r, m'')
  | (Raise e, m'') => (Raise e, m'')
  end.

(** The context manager [_timer_interface], applied to the block it wraps. *)
Definition _timer_interface (block : M unit) : M unit :=
  t0 ← read_perf_counter;
  try_finally
    (try_except_Exception block
       (fun e => g ← get_self;
                 print (PrintIgnored e (controller_class (controller g)))))
    (t1 ← read_perf_counter;
     set_time_elapsed (VFloat (t1 - t0 / 1000000)%float);;
     print (PrintTime ((t1 - t0) * 1000000)%float)).

(** ** Construction *)

(** The truth value of the [settings] argument: [None] and the empty
    dictionary are false. *)
Definition settings_truth (settings : option loc) (h : Heap) : bool :=
  match settings with
  | None => false
  | Some l =>
      match h !! l with
      | Some d => negb (bool_decide (d = ∅))
      | None => false
      end
  end.

(** [settings if settings else {}]: the dictionary given, or a new empty
    one. *)
Definition settings_or_new (settings : option loc) (h : Heap) : loc * Heap :=
  match settings with
  | Some l =>
      if settings_truth settings h then (l, h)
      else let l' := fresh (dom h) in (l', <[l' := ∅]> h)
  | None => let l' := fresh (dom h) in (l', <[l' := ∅]> h)
  end.

Definition no_controller_msg : string :=
  "No controller object given to the FuzzyAsteroid() constructor".

Definition no_actions_msg : string :=
  "Controller class given to FuzzyAsteroidGame doesn't have a method called``actions()`` which is used to control the Ship".

(** [FuzzyAsteroidGame.__init__].  The two checks run the controller's
    truth test and the lookup of its [actions]; the game keeps the
    controller as they left it. *)
Definition FuzzyAsteroidGame_init (controller : option Controller)
    (settings : option loc) (scenario : PyVal) (h : Heap) : Res Game * Heap :=
  let '(l, h) := settings_or_new settings h in
  match py_bool controller with
  | (Raise e, _) => (Raise e, h)
  | (Ok false, _) => (Raise (ValueError no_controller_msg), h)
  | (Ok true, c1) =>
      match hasattr_actions c1 with
      | (Raise e, _) => (Raise e, h)
      | (Ok false, _) => (Raise (TypeError no_actions_msg), h)
      | (Ok true, c2) =>
          (Ok {| controller := c2;
                 time_elapsed := VInt 0;
                 base := AsteroidGame_init (h !!! l) scenario |}, h)
      end
  end.

(** The outcome of the two checks of the constructor alone: the controller
    as they left it, or the exception. *)
Definition controller_checks (c : option Controller)
  : Res (option Controller) :=
  match py_bool c with
  | (Raise e, _) => Raise e
  | (Ok false, _) => Raise (ValueError no_controller_msg)
  | (Ok true, c1) =>
      match hasattr_actions c1 with
      | (Raise e, _) => Raise e
      | (Ok false, _) => Raise (TypeError no_actions_msg)
      | (Ok true, c2) => Ok c2
      end
  end.

(** ** TrainerEnvironment *)

(** [settings.update({...})] with the settings for training. *)
Definition training_update (d : Dict) : Dict :=
  <["allow_key_presses" := VBool false]>
  (<["prints" := VBool true]>
  (<["real_time_multiplier" := VInt 0]>
  (<["graphics_on" := VBool false]>
  (<["sound_on" := VBool false]> d)))).

(** [TrainerEnvironment.__init__]. *)
Definition TrainerEnvironment_init (controller : option Controller)
    (settings : option loc) (scenario : PyVal) (h : Heap) : Res Game * Heap :=
  let '(l, h) := settings_or_new settings h in
  let h := <[l := training_update (h !!! l)]> h in
  FuzzyAsteroidGame_init controller (Some l) scenario h.

Definition TrainerEnvironment_on_key_press (symbol modifiers : Z) : M unit :=
  mret tt.

Definition TrainerEnvironment_on_key_release (symbol modifiers : Z) : M unit :=
  mret tt.

(** ** The entry point *)

(** The machine a new game starts in. *)
Definition boot (g : Game) : Machine :=
  {| self := g; stdout := []; ticks := 0 |}.

(** [evaluate_controller].  The heap returned is the one the constructor
    left: what the base class or a controller does, during the run, to a
    dictionary it holds is not part of the model. *)
Definition evaluate_controller (controller : option Controller)
    (settings : option loc) (scenario : PyVal) (h : Heap) : Res PyVal * Heap :=
  match FuzzyAsteroidGame_init controller settings scenario h with
  | (Raise e, h') => (Raise e, h')
  | (Ok game, h') => (fst (run_single_game on_update (boot game)), h')
  end.

End Harness.

(** ** A small engine and some controllers, to run the harness on *)

Module Demo.

Definition bullet : Sprite := {| state := VTuple [VInt 0; VInt 0] |}.

Definition rock : Sprite := {| state := VTuple [VInt 7; VInt 9] |}.

Definition ship0 : ShipSprite.t :=
  {| ShipSprite.turn_rate := VInt 0; ShipSprite.thrust := VInt 0;
     ShipSprite.body := VNone |}.

Definition world (rocks bullets : list Sprite) (keys : list Z)
  : AsteroidGame.t :=
  {| AsteroidGame.frame_count := 0;
     AsteroidGame.size := VTuple [VInt 800; VInt 600];
     AsteroidGame.asteroid_list := rocks;
     AsteroidGame.bullet_list := bullets;
     AsteroidGame.player_sprite := ship0;
     AsteroidGame.active_key_presses := keys;
     AsteroidGame.internals := VNone |}.

(** An engine whose frame only counts, whose [fire_bullet] adds a bullet
    and whose [run_single_game] plays two frames. *)
#[local] Instance engine : Engine :=
  {| SpaceShip_init p :=
       {| SpaceShip.turn_rate := ShipSprite.turn_rate p;
          SpaceShip.thrust := ShipSprite.thrust p;
          SpaceShip.fire_bullet := false;
          SpaceShip.view := ShipSprite.body p |};
     AsteroidGame_init d scenario := world [rock] [] [];
     AsteroidGame_on_update dt b :=
       {| AsteroidGame.frame_count := AsteroidGame.frame_count b + 1;
          AsteroidGame.size := AsteroidGame.size b;
          AsteroidGame.asteroid_list := AsteroidGame.asteroid_list b;
          AsteroidGame.bullet_list := AsteroidGame.bullet_list b;
          AsteroidGame.player_sprite := AsteroidGame.player_sprite b;
          AsteroidGame.active_key_presses := AsteroidGame.active_key_presses b;
          AsteroidGame.internals := AsteroidGame.internals b |};
     AsteroidGame_fire_bullet b :=
       {| AsteroidGame.frame_count := AsteroidGame.frame_count b;
          AsteroidGame.size := AsteroidGame.size b;
          AsteroidGame.asteroid_list := AsteroidGame.asteroid_list b;
          AsteroidGame.bullet_list := bullet :: AsteroidGame.bullet_list b;
          AsteroidGame.player_sprite := AsteroidGame.player_sprite b;
          AsteroidGame.active_key_presses := AsteroidGame.active_key_presses b;
          AsteroidGame.internals := AsteroidGame.internals b |};
     run_single_game step :=
       step default_delta_time;; step default_delta_time;;
       g ← get_self; mret (VInt (AsteroidGame.frame_count (base g)));
     perf_counter n := match n with O => 1%float | S _ => 2%float end |}.

(** An engine that plays no frame at all. *)
Definition idle : Engine :=
  {| SpaceShip_init := @SpaceShip_init engine;
     AsteroidGame_init d scenario := world [] [] [];
     AsteroidGame_on_update dt b := b;
     AsteroidGame_fire_bullet b := b;
     run_single_game step := mret VNone;
     perf_counter n := 0%float |}.

(** The truth test of an object that always answers [b] and stays as it
    is; the lookup of an attribute [actions] that is a plain method, and of
    one that is not there. *)
Definition always (b : bool) (st : PyVal) : Res bool * PyVal := (Ok b, st).

Definition method (act : Method) (st : PyVal) : Res (option Method) * PyVal :=
  (Ok (Some act), st).

Definition no_method (st : PyVal) : Res (option Method) * PyVal :=
  (Ok None, st).

(** A controller that turns, thrusts and shoots, and counts its calls. *)
Definition pilot_actions (st : PyVal) (ship : SpaceShip.t) (d : Dict)
  : PyVal * SpaceShip.t * option PyExn :=
  (match st with VInt n => VInt (n + 1) | _ => st end,
   {| SpaceShip.turn_rate := VInt 90; SpaceShip.thrust := VInt 1;
      SpaceShip.fire_bullet := true;
      SpaceShip.view := SpaceShip.view ship |},
   None).

Definition pilot : Controller :=
  {| cstate := VInt 0;
     cls := "Pilot";
     truth := always true;
     actions := method pilot_actions |}.

(** A controller whose [actions] sets the turn rate and then raises. *)
Definition faulty_actions (st : PyVal) (ship : SpaceShip.t) (d : Dict)
  : PyVal * SpaceShip.t * option PyExn :=
  (st,
   {| SpaceShip.turn_rate := VInt 90;
      SpaceShip.thrust := SpaceShip.thrust ship;
      SpaceShip.fire_bullet := SpaceShip.fire_bullet ship;
      SpaceShip.view := SpaceShip.view ship |},
   Some (Exception "ZeroDivisionError")).

Definition faulty : Controller :=
  {| cstate := VInt 0;
     cls := "Faulty";
     truth := always true;
     actions := method faulty_actions |}.

(** A controller with [actions] and a [__len__] that is always zero. *)
Definition hollow : Controller :=
  {| cstate := VNone;
     cls := "Hollow";
     truth := always false;
     actions := method (fun st ship d => (st, ship, None)) |}.

(** An object that is no controller: it has no [actions]. *)
Definition bystander : Controller :=
  {| cstate := VNone; cls := "object"; truth := always true;
     actions := no_method |}.

(** A controller whose [__bool__] returns its attribute [armed], and whose
    [actions] toggles that attribute. *)
Definition one_shot_actions (st : PyVal) (ship : SpaceShip.t) (d : Dict)
  : PyVal * SpaceShip.t * option PyExn :=
  (match st with VBool b => VBool (negb b) | _ => st end, ship, None).

Definition one_shot : Controller :=
  {| cstate := VBool true;
     cls := "OneShot";
     truth := fun st => (Ok (match st with VBool b => b | _ => true end), st);
     actions := method one_shot_actions |}.

(** A controller whose [__bool__] answers [True] the first time it is asked
    and [False] ever after, and whose [actions] changes nothing. *)
Definition fickle : Controller :=
  {| cstate := VInt 0;
     cls := "Fickle";
     truth := fun st =>
       match st with
       | VInt 0 => (Ok true, VInt 1)
       | _ => (Ok false, st)
       end;
     actions := method (fun st ship d => (st, ship, None)) |}.

(** An object without [actions] whose [__bool__] raises. *)
Definition moody : Controller :=
  {| cstate := VNone;
     cls := "Moody";
     truth := fun st => (Raise (Exception "RuntimeError"), st);
     actions := no_method |}.

Definition game_of (c : Controller) (b : AsteroidGame.t) : Game :=
  {| controller := Some c; time_elapsed := VInt 0; base := b |}.

(** A settings dictionary of the caller, at location 1. *)
Definition caller_settings : Dict :=
  <["lives" := VInt 3]> (<["graphics_on" := VBool true]> ∅).

Definition caller_heap : Heap := <[1%positive := caller_settings]> ∅.

(** A caller whose settings dictionary, at location 1, is empty. *)
Definition bare_heap : Heap := <[1%positive := ∅]> ∅.

End Demo.

Ltac run_monad :=
  unfold mbind, M_bind, mret, M_ret, raise, get_self, put_self, set_base,
    set_controller, fire_bullet; simpl.

(** * Properties *)

Section Properties.
Context {E : Engine}.

(** ** The monad *)

Lemma bind_ok {A B : Type} (c : M A) (f : A -> M B) (m m' : Machine) (a : A) :
  c m = (Ok a, m') -> (c ≫= f) m = f a m'.
Proof. intros Hc. unfold mbind, M_bind. now rewrite Hc. Qed.

Lemma bind_raise {A B : Type} (c : M A) (f : A -> M B) (m m' : Machine) e :
  c m = (Raise e, m') -> (c ≫= f) m = (Raise e, m').
Proof. intros Hc. unfold mbind, M_bind. now rewrite Hc. Qed.

Lemma set_self_self (m : Machine) : set_self (self m) m = m.
Proof. now destruct m. Qed.

(** ** The state dictionary *)

Lemma data_asteroids (g : Game) :
  data g !! "asteroids"
  = Some (VTuple (state <$> AsteroidGame.asteroid_list (base g))).
Proof. unfold data. now simplify_map_eq. Qed.

Lemma data_bullets (g : Game) :
  data g !! "bullets"
  = Some (VTuple (state <$> AsteroidGame.asteroid_list (base g))).
Proof. unfold data. now simplify_map_eq. Qed.

(** C8: the bullets entry of the dictionary [data] returns is built from
    the asteroid list: it is the tuple of the asteroids' states, equal to
    the asteroids entry, whatever the list of bullets holds. *)
Theorem data_bullets_entry_is_asteroids (g : Game) (bs : list Sprite) :
  data g !! "bullets" = data g !! "asteroids"
  /\ data g !! "bullets"
     = Some (VTuple (state <$> AsteroidGame.asteroid_list (base g)))
  /\ data {| controller := controller g; time_elapsed := time_elapsed g;
             base := AsteroidGame.set_bullet_list bs (base g) |} !! "bullets"
     = data g !! "bullets".
Proof.
  rewrite !data_bullets, data_asteroids. repeat split.
Qed.

(** ** One frame *)

Lemma test_controller_answer (m : Machine) (answer : Res bool)
    (c' : option Controller) :
  py_bool (controller (self m)) = (answer, c') ->
  test_controller m = (answer, with_controller c' m).
Proof. intros Hb. unfold test_controller, with_controller. now rewrite Hb. Qed.

Lemma py_bool_Some (c : Controller) (answer : Res bool) (st : PyVal) :
  truth c (cstate c) = (answer, st) ->
  py_bool (Some c) = (answer, Some (set_cstate st c)).
Proof. intros Ht. unfold py_bool. now rewrite Ht. Qed.

Lemma call_stored_controller_returns (m : Machine) (c : Controller)
    st1 st2 act st ship :
  controller (self m) = Some c ->
  truth c (cstate c) = (Ok true, st1) ->
  actions c st1 = (Ok (Some act), st2) ->
  act st2
      (SpaceShip_init (AsteroidGame.player_sprite (base (self m))))
      (data (self m)) = (st, ship, None) ->
  call_stored_controller m
  = (Ok tt,
     set_self {| controller := Some (set_cstate st c);
                 time_elapsed := time_elapsed (self m);
                 base := commanded ship (base (self m)) |} m).
Proof.
  intros Hc Ht Ha Hact.
  unfold call_stored_controller, test_controller, call_actions, commanded.
  run_monad. rewrite Hc. simpl. rewrite Ht. simpl. rewrite Ha. simpl.
  unfold data in *. simpl. rewrite Hact. simpl.
  destruct (SpaceShip.fire_bullet ship); reflexivity.
Qed.

Lemma call_stored_controller_raises (m : Machine) (c : Controller)
    st1 st2 act st ship e :
  controller (self m) = Some c ->
  truth c (cstate c) = (Ok true, st1) ->
  actions c st1 = (Ok (Some act), st2) ->
  act st2
      (SpaceShip_init (AsteroidGame.player_sprite (base (self m))))
      (data (self m)) = (st, ship, Some e) ->
  call_stored_controller m = (Raise e, with_cstate c st m).
Proof.
  intros Hc Ht Ha Hact.
  unfold call_stored_controller, test_controller, call_actions, with_cstate.
  run_monad. rewrite Hc. simpl. rewrite Ht. simpl. rewrite Ha. simpl.
  unfold data in *. simpl. now rewrite Hact.
Qed.

Lemma call_stored_controller_skips (m : Machine) (c' : option Controller) :
  py_bool (controller (self m)) = (Ok false, c') ->
  call_stored_controller m = (Ok tt, with_controller c' m).
Proof.
  intros Hb. unfold call_stored_controller.
  now rewrite (bind_ok _ _ _ _ _ (test_controller_answer m _ _ Hb)).
Qed.

(** A fault of [actions] leaves [on_update] as it left [actions]: the
    commands are not applied and the simulation is not advanced. *)
Lemma on_update_raises (dt : float) (m : Machine) (c : Controller)
    st1 st2 act st ship e :
  AsteroidGame.active_key_presses (base (self m)) = [] ->
  controller (self m) = Some c ->
  truth c (cstate c) = (Ok true, st1) ->
  actions c st1 = (Ok (Some act), st2) ->
  act st2
      (SpaceShip_init (AsteroidGame.player_sprite (base (self m))))
      (data (self m)) = (st, ship, Some e) ->
  on_update dt m = (Raise e, with_cstate c st m).
Proof.
  intros Hk Hc Ht Ha Hact. unfold on_update.
  unfold mbind at 1, M_bind at 1, get_self at 1. rewrite Hk.
  erewrite bind_raise; [reflexivity|].
  eapply call_stored_controller_raises; eassumption.
Qed.

(** When [actions] returns, [on_update] applies the commands of the ship
    and then advances the simulation. *)
Lemma on_update_returns (dt : float) (m : Machine) (c : Controller)
    st1 st2 act st ship :
  AsteroidGame.active_key_presses (base (self m)) = [] ->
  controller (self m) = Some c ->
  truth c (cstate c) = (Ok true, st1) ->
  actions c st1 = (Ok (Some act), st2) ->
  act st2
      (SpaceShip_init (AsteroidGame.player_sprite (base (self m))))
      (data (self m)) = (st, ship, None) ->
  on_update dt m
  = (Ok tt,
     set_self {| controller := Some (set_cstate st c);
                 time_elapsed := time_elapsed (self m);
                 base := AsteroidGame_on_update dt
                           (commanded ship (base (self m))) |} m).
Proof.
  intros Hk Hc Ht Ha Hact. unfold on_update.
  unfold mbind at 1, M_bind at 1, get_self at 1. rewrite Hk.
  erewrite bind_ok
    by (eapply call_stored_controller_returns; eassumption).
  reflexivity.
Qed.

(** C4: in a frame with key presses pending the controller is not invoked:
    whatever the controller is (it may raise, or change itself, when
    called), [on_update] is the update of the base class alone, and the
    controller, the commands of the ship and the console are as before. *)
Theorem on_update_key_presses_skip_controller (dt : float) (m : Machine) :
  AsteroidGame.active_key_presses (base (self m)) <> [] ->
  on_update dt m = (Ok tt, advanced dt m)
  /\ controller (self (snd (on_update dt m))) = controller (self m)
  /\ base (self (snd (on_update dt m)))
     = AsteroidGame_on_update dt (base (self m)).
Proof.
  intros Hk.
  assert (Hrun : on_update dt m = (Ok tt, advanced dt m)).
  { unfold on_update, advanced. run_monad.
    destruct (AsteroidGame.active_key_presses (base (self m))); [easy|].
    reflexivity. }
  rewrite Hrun. repeat split.
Qed.

(** C5: in a frame in which the controller is invoked (no key press is
    pending, the truth test of the guard answers [True], the lookup finds
    [actions]) and its call returns, the turn rate and the thrust the ship
    object ended with are copied onto the player's sprite, [fire_bullet]
    of the game is called once if the ship's fire flag is set and not at
    all otherwise, and only then does the base class advance the
    simulation.  The controller may change state at each step: the test
    leaves it in [st1], the lookup in [st2], the call in [st]. *)
Theorem on_update_applies_commands (dt : float) (m : Machine)
    (c : Controller) st1 st2 act st ship :
  AsteroidGame.active_key_presses (base (self m)) = [] ->
  controller (self m) = Some c ->
  truth c (cstate c) = (Ok true, st1) ->
  actions c st1 = (Ok (Some act), st2) ->
  act st2
      (SpaceShip_init (AsteroidGame.player_sprite (base (self m))))
      (data (self m)) = (st, ship, None) ->
  let p := AsteroidGame.player_sprite (base (self m)) in
  let steered :=
    AsteroidGame.set_player_sprite
      {| ShipSprite.turn_rate := SpaceShip.turn_rate ship;
         ShipSprite.thrust := SpaceShip.thrust ship;
         ShipSprite.body := ShipSprite.body p |} (base (self m)) in
  on_update dt m
  = (Ok tt,
     set_self
       {| controller := Some (set_cstate st c);
          time_elapsed := time_elapsed (self m);
          base := AsteroidGame_on_update dt
                    (if SpaceShip.fire_bullet ship
                     then AsteroidGame_fire_bullet steered
                     else steered) |} m).
Proof.
  intros Hk Hc Ht Ha Hact p steered.
  now rewrite (on_update_returns dt m c st1 st2 act st ship Hk Hc Ht Ha Hact).
Qed.

(** ** The timer *)

(** Whatever the block does, [_timer_interface] leaves in [time_elapsed]
    the second reading minus a millionth of the first. *)
Lemma timer_interface_time_elapsed (block : M unit) (m : Machine) :
  let t0 := perf_counter (ticks m) in
  let t1 := perf_counter (ticks (snd (block (ticked m)))) in
  time_elapsed (self (snd (_timer_interface block m)))
  = VFloat (t1 - t0 / 1000000)%float.
Proof.
  unfold _timer_interface, try_finally, try_except_Exception, ticked.
  unfold mbind at 1, M_bind at 1, read_perf_counter at 1.
  destruct (block _) as [[[]|e] m1]; simpl; [reflexivity|].
  destruct (is_Exception e); reflexivity.
Qed.

(** A block that raises an [Exception] inside the timer interface does not
    raise out of it. *)
Lemma timer_interface_contains (block : M unit) (m m1 : Machine) (e : PyExn) :
  block (ticked m) = (Raise e, m1) ->
  is_Exception e = true ->
  fst (_timer_interface block m) = Ok tt
  /\ base (self (snd (_timer_interface block m))) = base (self m1).
Proof.
  intros Hb He.
  split;
    unfold _timer_interface, try_finally, try_except_Exception;
    unfold mbind at 1, M_bind at 1, read_perf_counter at 1;
    fold (ticked m); rewrite Hb, He; reflexivity.
Qed.

(** ** Construction *)

Lemma settings_or_new_kept (l : loc) (h : Heap) (d : Dict) :
  h !! l = Some d -> d <> ∅ -> settings_or_new (Some l) h = (l, h).
Proof.
  intros Hl Hd. unfold settings_or_new, settings_truth. rewrite Hl.
  now rewrite bool_decide_eq_false_2.
Qed.

Lemma settings_or_new_empty (l : loc) (h : Heap) :
  h !! l = Some ∅ ->
  settings_or_new (Some l) h = (fresh (dom h), <[fresh (dom h) := ∅]> h).
Proof.
  intros Hl. unfold settings_or_new, settings_truth. rewrite Hl.
  now rewrite bool_decide_eq_true_2.
Qed.

(** The location of a new dictionary is not one of the caller's. *)
Lemma fresh_not_allocated (h : Heap) (l : loc) :
  is_Some (h !! l) -> fresh (dom h) <> l.
Proof.
  intros Hl Heq. apply elem_of_dom in Hl. rewrite <- Heq in Hl.
  now apply is_fresh in Hl.
Qed.

Lemma settings_or_new_preserves (settings : option loc) (h : Heap) (l : loc) :
  is_Some (h !! l) -> snd (settings_or_new settings h) !! l = h !! l.
Proof.
  intros Hl. unfold settings_or_new.
  destruct settings as [l0|]; [destruct (settings_truth _ _)|]; simpl;
    try reflexivity;
    now rewrite lookup_insert_ne by now apply fresh_not_allocated.
Qed.

Lemma training_update_nonempty (d : Dict) : training_update d <> ∅.
Proof. unfold training_update. apply insert_non_empty. Qed.

Lemma training_update_forced (d : Dict) :
  training_update d !! "sound_on" = Some (VBool false)
  /\ training_update d !! "graphics_on" = Some (VBool false)
  /\ training_update d !! "real_time_multiplier" = Some (VInt 0)
  /\ training_update d !! "prints" = Some (VBool true)
  /\ training_update d !! "allow_key_presses" = Some (VBool false).
Proof. unfold training_update. repeat split; now simplify_map_eq. Qed.

Lemma training_update_other (d : Dict) (k : string) :
  k ∉ ["sound_on"; "graphics_on"; "real_time_multiplier"; "prints";
       "allow_key_presses"] ->
  training_update d !! k = d !! k.
Proof.
  intros Hk. unfold training_update.
  rewrite !lookup_insert_ne; [reflexivity|..];
    intros <-; apply Hk; set_solver.
Qed.


Lemma controller_checks_accepts (c c1 c2 : option Controller) :
  py_bool c = (Ok true, c1) ->
  hasattr_actions c1 = (Ok true, c2) ->
  controller_checks c = Ok c2.
Proof. intros Hb Ha. unfold controller_checks. now rewrite Hb, Ha. Qed.

(** What [FuzzyAsteroidGame.__init__] returns, by the two checks. *)
Lemma FuzzyAsteroidGame_init_result (c : option Controller)
    (settings : option loc) (scenario : PyVal) (h : Heap) :
  let l := fst (settings_or_new settings h) in
  let h' := snd (settings_or_new settings h) in
  FuzzyAsteroidGame_init c settings scenario h
  = (match controller_checks c with
     | Ok c2 => Ok {| controller := c2; time_elapsed := VInt 0;
                      base := AsteroidGame_init (h' !!! l) scenario |}
     | Raise e => Raise e
     end, h').
Proof.
  unfold FuzzyAsteroidGame_init, controller_checks.
  destruct (settings_or_new settings h) as [l h']. simpl.
  destruct (py_bool c) as [[[]|e] c1]; [|reflexivity|reflexivity].
  destruct (hasattr_actions c1) as [[[]|e] c2]; reflexivity.
Qed.

(** What [TrainerEnvironment.__init__] returns and leaves in the heap. *)
Lemma TrainerEnvironment_init_result (c : option Controller)
    (settings : option loc) (scenario : PyVal) (h : Heap) :
  let l := fst (settings_or_new settings h) in
  let h1 := snd (settings_or_new settings h) in
  let d := training_update (h1 !!! l) in
  TrainerEnvironment_init c settings scenario h
  = (match controller_checks c with
     | Ok c2 => Ok {| controller := c2; time_elapsed := VInt 0;
                      base := AsteroidGame_init d scenario |}
     | Raise e => Raise e
     end, <[l := d]> h1).
Proof.
  unfold TrainerEnvironment_init.
  destruct (settings_or_new settings h) as [l h1]. simpl.
  rewrite FuzzyAsteroidGame_init_result.
  erewrite settings_or_new_kept;
    [|apply lookup_insert_eq|apply training_update_nonempty].
  simpl. now rewrite lookup_total_insert_eq.
Qed.

(** When the checks of the constructor raise, [evaluate_controller] ends
    there. *)
Lemma evaluate_controller_rejected (c : option Controller)
    (settings : option loc) (scenario : PyVal) (h : Heap) (e : PyExn) :
  controller_checks c = Raise e ->
  evaluate_controller c settings scenario h
  = (Raise e, snd (settings_or_new settings h)).
Proof.
  intros Hchecks. unfold evaluate_controller.
  pose proof (FuzzyAsteroidGame_init_result c settings scenario h) as Hinit.
  simpl in Hinit. now rewrite Hinit, Hchecks.
Qed.

End Properties.


Section Training.
Context {E : Engine}.

(** C6: whatever settings the caller gives (none, an empty dictionary, or
    one that sets these keys otherwise), [TrainerEnvironment] constructs
    the base game of an accepted controller (its truth test answers [True]
    and its [actions] is found) from settings in which graphics and sound
    are off, the real-time multiplier is 0 and key presses are not allowed;
    and its handlers of key presses and releases do nothing. *)
Theorem TrainerEnvironment_forces_settings (c c1 c2 : option Controller)
    (settings : option loc) (scenario : PyVal) (h : Heap) :
  py_bool c = (Ok true, c1) ->
  hasattr_actions c1 = (Ok true, c2) ->
  (exists d : Dict,
      fst (TrainerEnvironment_init c settings scenario h)
      = Ok {| controller := c2; time_elapsed := VInt 0;
              base := AsteroidGame_init d scenario |}
      /\ d !! "graphics_on" = Some (VBool false)
      /\ d !! "sound_on" = Some (VBool false)
      /\ d !! "real_time_multiplier" = Some (VInt 0)
      /\ d !! "allow_key_presses" = Some (VBool false))
  /\ (forall symbol modifiers m,
        TrainerEnvironment_on_key_press symbol modifiers m = (Ok tt, m)
        /\ TrainerEnvironment_on_key_release symbol modifiers m = (Ok tt, m)).
Proof.
  intros Hb Ha. split; [|now intros].
  rewrite TrainerEnvironment_init_result.
  rewrite (controller_checks_accepts c c1 c2 Hb Ha). simpl.
  eexists. split; [reflexivity|].
  pose proof (training_update_forced
    (snd (settings_or_new settings h) !!! fst (settings_or_new settings h)))
    as (? & ? & ? & ? & ?).
  auto.
Qed.

(** C9, amended: when the caller gives a dictionary that is not empty,
    [TrainerEnvironment.__init__] updates that very dictionary in place,
    whether or not the controller is then accepted: the five keys get
    sound_on=False, graphics_on=False, real_time_multiplier=0, prints=True
    and allow_key_presses=False, every other key keeps its entry, and no
    other dictionary changes. *)
Theorem TrainerEnvironment_updates_settings_in_place (c : option Controller)
    (l : loc) (scenario : PyVal) (h : Heap) (d : Dict) :
  h !! l = Some d ->
  d <> ∅ ->
  exists d' : Dict,
    snd (TrainerEnvironment_init c (Some l) scenario h) = <[l := d']> h
    /\ d' !! "sound_on" = Some (VBool false)
    /\ d' !! "graphics_on" = Some (VBool false)
    /\ d' !! "real_time_multiplier" = Some (VInt 0)
    /\ d' !! "prints" = Some (VBool true)
    /\ d' !! "allow_key_presses" = Some (VBool false)
    /\ (forall k,
          k ∉ ["sound_on"; "graphics_on"; "real_time_multiplier"; "prints";
               "allow_key_presses"] ->
          d' !! k = d !! k).
Proof.
  intros Hl Hd. exists (training_update d).
  rewrite TrainerEnvironment_init_result.
  rewrite (settings_or_new_kept l h d Hl Hd). simpl.
  rewrite (lookup_total_correct _ _ _ Hl).
  split; [reflexivity|].
  pose proof (training_update_forced d) as (? & ? & ? & ? & ?).
  repeat (split; [assumption|]).
  apply training_update_other.
Qed.


(** ** The guard of [call_stored_controller] *)

Lemma call_stored_controller_keeps_truth (c : Controller) (m : Machine) :
  truth_stable c -> truthy_as c m -> truthy_as c (snd (call_stored_controller m)).
Proof.
  intros Hs (st & Hc & Hst).
  destruct (Hs st Hst) as (Htest & _ & _).
  destruct Hst as [st1 Ht]. rewrite Ht in Htest. simpl in Htest.
  destruct (Hs st1 Htest) as (_ & Hlookup & _).
  unfold call_stored_controller, test_controller, call_actions.
  run_monad. rewrite Hc. simpl. rewrite Ht. simpl.
  destruct (actions c st1) as [found st2] eqn:Ha. simpl in *.
  destruct found as [[act|]|e]; simpl.
  - destruct (Hs st2 Hlookup) as (_ & _ & Hcall).
    assert (Hfound : fst (actions c st1) = Ok (Some act)) by now rewrite Ha.
    pose proof (Hcall act st1
      (SpaceShip_init (AsteroidGame.player_sprite (base (self m))))
      (data {| controller := Some (set_cstate st1 c);
               time_elapsed := time_elapsed (self m);
               base := base (self m) |}) Hfound) as Hst.
    destruct (act st2 _ _) as [[st3 ship'] [e|]]; simpl in *.
    + exists st3. now split.
    + destruct (SpaceShip.fire_bullet ship'); simpl; exists st3; now split.
  - exists st2. now split.
  - exists st2. now split.
Qed.

Lemma on_update_keeps_truth (c : Controller) (dt : float) (m : Machine) :
  truth_stable c -> truthy_as c m -> truthy_as c (snd (on_update dt m)).
Proof.
  intros Hs Hm. unfold on_update.
  unfold mbind at 1, M_bind at 1, get_self at 1.
  destruct (AsteroidGame.active_key_presses (base (self m))).
  - pose proof (call_stored_controller_keeps_truth c m Hs Hm) as Hm'.
    unfold mbind at 1, M_bind at 1.
    destruct (call_stored_controller m) as [[[]|e] m']; simpl in *.
    + run_monad. exact Hm'.
    + exact Hm'.
  - run_monad. exact Hm.
Qed.

Lemma frames_keep_truth (c : Controller) (dts : list float) (m : Machine) :
  truth_stable c -> truthy_as c m -> truthy_as c (snd (frames dts m)).
Proof.
  intros Hs. revert m. induction dts as [|dt dts IH]; intros m Hm.
  - exact Hm.
  - pose proof (on_update_keeps_truth c dt m Hs Hm) as Hm'.
    simpl. unfold mbind at 1, M_bind at 1.
    destruct (on_update dt m) as [[[]|e] m']; simpl in *.
    + now apply IH.
    + exact Hm'.
Qed.

Lemma truthy_as_py_bool (c : Controller) (m : Machine) :
  truthy_as c m -> exists c', py_bool (controller (self m)) = (Ok true, c').
Proof.
  intros (st & Hc & st' & Ht). rewrite Hc. simpl. rewrite Ht. eauto.
Qed.

(** A game that was constructed with a controller whose truth value is
    stable starts with the controller in a state in which it is true. *)
Lemma constructed_truthy_as (c : Controller) (settings : option loc)
    (scenario : PyVal) (h : Heap) (g : Game) :
  truth_stable c ->
  fst (FuzzyAsteroidGame_init (Some c) settings scenario h) = Ok g ->
  truthy_as c (boot g).
Proof.
  intros Hs.
  pose proof (FuzzyAsteroidGame_init_result (Some c) settings scenario h)
    as Hinit.
  simpl in Hinit. rewrite Hinit. clear Hinit.
  unfold controller_checks, py_bool, hasattr_actions. simpl.
  destruct (truth c (cstate c)) as [[[]|e] st1] eqn:Ht; simpl;
    [|discriminate|discriminate].
  assert (H0 : truthy_state c (cstate c)) by (now exists st1).
  destruct (Hs _ H0) as (H1 & _ & _). rewrite Ht in H1. simpl in H1.
  destruct (Hs _ H1) as (_ & H2 & _).
  destruct (actions c st1) as [[[act|]|e] st2]; simpl in *;
    [|discriminate|discriminate].
  intros [= <-]. exists st2. now split.
Qed.


(** When the stored controller is false, [on_update] plays the frame
    without it. *)
Lemma on_update_without_controller_aux (dt : float) (m : Machine)
    (c' : option Controller) :
  py_bool (controller (self m)) = (Ok false, c') ->
  on_update dt m
  = (Ok tt,
     advanced dt
       (match AsteroidGame.active_key_presses (base (self m)) with
        | [] => with_controller c' m
        | _ :: _ => m
        end)).
Proof.
  intros Hb. unfold on_update.
  unfold mbind at 1, M_bind at 1, get_self at 1.
  destruct (AsteroidGame.active_key_presses (base (self m))).
  - rewrite (bind_ok _ _ _ _ _ (call_stored_controller_skips m c' Hb)).
    reflexivity.
  - reflexivity.
Qed.

End Training.

(** * The harness at work *)

Section Runs.
Import Demo.
#[local] Existing Instance engine.

Lemma faulty_call (m : Machine) :
  faulty_actions (VInt 0)
    (SpaceShip_init (AsteroidGame.player_sprite (base (self m))))
    (data (self m))
  = (VInt 0,
     {| SpaceShip.turn_rate := VInt 90;
        SpaceShip.thrust :=
          ShipSprite.thrust (AsteroidGame.player_sprite (base (self m)));
        SpaceShip.fire_bullet := false;
        SpaceShip.view :=
          ShipSprite.body (AsteroidGame.player_sprite (base (self m))) |},
     Some (Exception "ZeroDivisionError")).
Proof. reflexivity. Qed.

(** C1: a controller whose [actions] raises.  [call_stored_controller]
    calls [actions] outside any handler, so the exception leaves
    [call_stored_controller] and [on_update]: the frame is not played (the
    machine is as before, the simulation is not advanced), and an engine
    whose game loop only calls [on_update] passes the exception on to the
    caller of [evaluate_controller].  The one handler of the class, in
    [_timer_interface], would have contained it, but no call goes through
    it. *)
Theorem on_update_propagates_controller_fault :
  let m := boot (game_of faulty (world [rock] [] [])) in
  call_stored_controller m = (Raise (Exception "ZeroDivisionError"), m)
  /\ on_update default_delta_time m
     = (Raise (Exception "ZeroDivisionError"), m)
  /\ fst (evaluate_controller (Some faulty) None VNone ∅)
     = Raise (Exception "ZeroDivisionError")
  /\ fst (_timer_interface call_stored_controller m) = Ok tt.
Proof.
  intros m.
  assert (Hcall : call_stored_controller m
                  = (Raise (Exception "ZeroDivisionError"), m)).
  { now rewrite (call_stored_controller_raises m faulty (VInt 0) (VInt 0)
                   faulty_actions (VInt 0) _ _
                   eq_refl eq_refl eq_refl (faulty_call m)). }
  split; [exact Hcall|]. split; [|split].
  - now rewrite (on_update_raises default_delta_time m faulty (VInt 0) (VInt 0)
                   faulty_actions (VInt 0) _ _
                   eq_refl eq_refl eq_refl eq_refl (faulty_call m)).
  - vm_compute. reflexivity.
  - vm_compute. reflexivity.
Qed.

(** C2: with no asteroid and one bullet alive, the bullets entry of the
    state dictionary is the empty tuple: the state of the bullet is not in
    it. *)
Theorem data_omits_live_bullets :
  let g := game_of pilot (world [] [bullet] []) in
  AsteroidGame.bullet_list (base g) = [bullet]
  /\ data g !! "bullets" = Some (VTuple []).
Proof. split; [reflexivity|]. now rewrite data_bullets. Qed.

(** C7: with the counter reading 1.0 before the block and 2.0 after it,
    [_timer_interface] stores 2.0 - 1.0/1e6 in [time_elapsed], which is not
    the duration 2.0 - 1.0. *)
Theorem timer_interface_time_elapsed_is_not_duration :
  let m := boot (game_of pilot (world [rock] [] [])) in
  let m' := snd (_timer_interface call_stored_controller m) in
  perf_counter 0 = 1%float
  /\ perf_counter 1 = 2%float
  /\ time_elapsed (self m') = VFloat (2 - 1 / 1000000)%float
  /\ time_elapsed (self m') <> VFloat (2 - 1)%float.
Proof.
  intros m m'. subst m'.
  rewrite (timer_interface_time_elapsed call_stored_controller m).
  split; [reflexivity|]. split; [reflexivity|]. split; [reflexivity|].
  intros H.
  apply (f_equal (fun v => match v with
                           | VFloat x => PrimFloat.eqb x 1
                           | _ => false
                           end)) in H.
  vm_compute in H. discriminate.
Qed.

(** With a key held down, the faulty controller is not reached. *)
Lemma on_update_key_presses_skip_controller_run :
  let m := boot (game_of faulty (world [rock] [] [32])) in
  AsteroidGame.active_key_presses (base (self m)) <> []
  /\ on_update default_delta_time m = (Ok tt, advanced default_delta_time m)
  /\ controller (self (snd (on_update default_delta_time m))) = Some faulty
  /\ AsteroidGame.frame_count
       (base (self (snd (on_update default_delta_time m)))) = 1.
Proof.
  intros m.
  assert (Hk : AsteroidGame.active_key_presses (base (self m)) <> [])
    by (simpl; discriminate).
  destruct (on_update_key_presses_skip_controller default_delta_time m Hk)
    as (Hrun & Hc & Hb).
  split; [exact Hk|]. split; [exact Hrun|]. split; [exact Hc|].
  rewrite Hb. reflexivity.
Defined.

(** The pilot's frame: turn rate 90, thrust 1, one bullet, then the frame
    counter moves. *)
Lemma on_update_applies_commands_run :
  let m := boot (game_of pilot (world [rock] [] [])) in
  let b := base (self (snd (on_update default_delta_time m))) in
  AsteroidGame.player_sprite b
  = {| ShipSprite.turn_rate := VInt 90; ShipSprite.thrust := VInt 1;
       ShipSprite.body := VNone |}
  /\ AsteroidGame.bullet_list b = [bullet]
  /\ AsteroidGame.frame_count b = 1.
Proof.
  intros m b. subst b.
  assert (Hact : pilot_actions (cstate pilot)
                   (SpaceShip_init (AsteroidGame.player_sprite (base (self m))))
                   (data (self m))
                 = (VInt 1,
                    {| SpaceShip.turn_rate := VInt 90;
                       SpaceShip.thrust := VInt 1;
                       SpaceShip.fire_bullet := true;
                       SpaceShip.view := VNone |}, None))
    by reflexivity.
  rewrite (on_update_applies_commands default_delta_time m pilot
             (VInt 0) (VInt 0) pilot_actions
             _ _ eq_refl eq_refl eq_refl eq_refl Hact).
  simpl. split; [reflexivity|]. split; reflexivity.
Defined.



(** The caller asks for graphics; the trainer turns them off. *)
Lemma TrainerEnvironment_forces_settings_run :
  caller_settings !! "graphics_on" = Some (VBool true)
  /\ exists d : Dict,
       fst (TrainerEnvironment_init (Some pilot) (Some 1%positive) VNone
              caller_heap)
       = Ok {| controller := Some pilot; time_elapsed := VInt 0;
               base := AsteroidGame_init d VNone |}
       /\ d !! "graphics_on" = Some (VBool false)
       /\ d !! "sound_on" = Some (VBool false)
       /\ d !! "real_time_multiplier" = Some (VInt 0)
       /\ d !! "allow_key_presses" = Some (VBool false).
Proof.
  split; [vm_compute; reflexivity|].
  assert (Hb : py_bool (Some pilot) = (Ok true, Some pilot)) by reflexivity.
  assert (Ha : hasattr_actions (Some pilot) = (Ok true, Some pilot))
    by reflexivity.
  exact (proj1 (TrainerEnvironment_forces_settings (Some pilot) (Some pilot)
                  (Some pilot) (Some 1%positive) VNone caller_heap Hb Ha)).
Defined.

(** The caller's dictionary after the trainer was constructed. *)
Lemma TrainerEnvironment_updates_settings_in_place_run :
  caller_heap !! 1%positive = Some caller_settings
  /\ caller_settings <> ∅
  /\ exists d' : Dict,
       snd (TrainerEnvironment_init (Some pilot) (Some 1%positive) VNone
              caller_heap) = <[1%positive := d']> caller_heap
       /\ d' !! "graphics_on" = Some (VBool false)
       /\ d' !! "prints" = Some (VBool true)
       /\ d' !! "lives" = Some (VInt 3).
Proof.
  assert (Hl : caller_heap !! 1%positive = Some caller_settings)
    by apply lookup_insert_eq.
  assert (Hd : caller_settings <> ∅) by apply insert_non_empty.
  split; [exact Hl|]. split; [exact Hd|].
  destruct (TrainerEnvironment_updates_settings_in_place (Some pilot)
              1%positive VNone caller_heap caller_settings Hl Hd)
    as (d' & Hh & _ & Hg & _ & Hp & _ & Hother).
  exists d'. split; [exact Hh|]. split; [exact Hg|]. split; [exact Hp|].
  rewrite Hother; [vm_compute; reflexivity|].
  intros Hin. repeat (apply elem_of_cons in Hin as [Hin|Hin]; [discriminate|]).
  now apply elem_of_nil in Hin.
Defined.

(** C9, as stated, fails for a caller whose dictionary is empty: the
    constructor updates a new dictionary, and the caller's stays empty. *)
Lemma TrainerEnvironment_leaves_empty_settings :
  let h := <[1%positive := ∅]> (∅ : Heap) in
  let h' := snd (TrainerEnvironment_init (Some pilot) (Some 1%positive) VNone h)
  in
  h' !! 1%positive = Some ∅
  /\ ~ (exists d' : Dict,
          h' !! 1%positive = Some d'
          /\ d' !! "prints" = Some (VBool true)).
Proof.
  intros h h'.
  assert (Hl : h' !! 1%positive = Some ∅).
  { subst h'. rewrite TrainerEnvironment_init_result.
    rewrite (settings_or_new_empty 1%positive h) by apply lookup_insert_eq.
    simpl.
    rewrite !lookup_insert_ne
      by (apply fresh_not_allocated; now exists ∅).
    reflexivity. }
  split; [exact Hl|].
  intros (d' & Hd' & Hp). rewrite Hl in Hd'. injection Hd' as <-.
  now rewrite lookup_empty in Hp.
Qed.



(** The same happens to a controller whose [actions] changes nothing, when
    its [__bool__] answers [True] only the first time it is asked: the
    constructor gets that answer, and the guard of the first frame already
    skips the controller. *)
Lemma call_stored_controller_skips_fickle_controller :
  exists g : Game,
    fst (FuzzyAsteroidGame_init (Some fickle) None VNone ∅) = Ok g
    /\ fst (py_bool (controller g)) = Ok false
    /\ call_stored_controller (boot g) = (Ok tt, boot g).
Proof.
  exists {| controller := Some (set_cstate (VInt 1) fickle);
            time_elapsed := VInt 0; base := world [rock] [] [] |}.
  split; [vm_compute; reflexivity|]. split; [reflexivity|].
  vm_compute. reflexivity.
Qed.

End Runs.

(** * Further properties of the harness *)

Section Further.
Context {E : Engine}.

(** ** The timer interface *)


(** X2: the timer is a diagnostic only.  After [_timer_interface] the
    controller and the base state of the game are as the block left them;
    one more reading of the counter was taken; and the console got, last,
    the duration in microseconds, (t1 - t0) * 1e6, preceded by the line
    about the ignored exception when one was contained. *)
Theorem timer_interface_effects (block : M unit) (m : Machine) :
  let m1 := snd (block (ticked m)) in
  let m' := snd (_timer_interface block m) in
  controller (self m') = controller (self m1)
  /\ base (self m') = base (self m1)
  /\ ticks m' = S (ticks m1)
  /\ stdout m'
     = PrintTime ((perf_counter (ticks m1) - perf_counter (ticks m))
                  * 1000000)%float
       :: match fst (block (ticked m)) with
          | Ok _ => stdout m1
          | Raise e =>
              if is_Exception e
              then PrintIgnored e (controller_class (controller (self m1)))
                   :: stdout m1
              else stdout m1
          end.
Proof.
  cbv zeta.
  unfold _timer_interface, try_finally, try_except_Exception, ticked,
    read_perf_counter, set_time_elapsed, print.
  run_monad.
  destruct (block _) as [[[]|e] m1]; simpl.
  - split; [reflexivity|]. split; [reflexivity|]. split; reflexivity.
  - destruct (is_Exception e); simpl;
      (split; [reflexivity|]); (split; [reflexivity|]); split; reflexivity.
Qed.

(** ** The constructor of [FuzzyAsteroidGame] *)

Lemma settings_or_new_false (settings : option loc) (h : Heap) :
  settings_truth settings h = false ->
  settings_or_new settings h = (fresh (dom h), <[fresh (dom h) := ∅]> h).
Proof.
  intros Hf. unfold settings_or_new. destruct settings as [l|]; [|reflexivity].
  now rewrite Hf.
Qed.

(** X4: the settings the base class is constructed from.  With a controller
    that is accepted (its truth test answers [True] and its [actions] is
    found), the base game is built from the entries of the dictionary
    given; when no dictionary is given, or an empty one, it is built from
    an empty dictionary; the game keeps the controller as the two checks
    left it, and [time_elapsed] starts at 0. *)
Theorem FuzzyAsteroidGame_init_settings (c c1 c2 : option Controller)
    (settings : option loc) (scenario : PyVal) (h : Heap) :
  py_bool c = (Ok true, c1) ->
  hasattr_actions c1 = (Ok true, c2) ->
  fst (FuzzyAsteroidGame_init c settings scenario h)
  = Ok {| controller := c2;
          time_elapsed := VInt 0;
          base := AsteroidGame_init
                    (match settings with
                     | Some l => default ∅ (h !! l)
                     | None => ∅
                     end) scenario |}.
Proof.
  intros Hb Ha.
  pose proof (FuzzyAsteroidGame_init_result c settings scenario h) as Hr.
  simpl in Hr. rewrite Hr, (controller_checks_accepts c c1 c2 Hb Ha).
  simpl. do 3 f_equal.
  destruct (settings_truth settings h) eqn:Ht.
  - destruct settings as [l|]; [|discriminate Ht].
    unfold settings_truth in Ht. destruct (h !! l) as [d|] eqn:Hl;
      [|discriminate Ht].
    apply negb_true_iff, bool_decide_eq_false in Ht.
    rewrite (settings_or_new_kept l h d Hl Ht). simpl.
    now rewrite (lookup_total_correct _ _ _ Hl).
  - rewrite (settings_or_new_false settings h Ht). simpl.
    rewrite lookup_total_insert_eq.
    destruct settings as [l|]; [|reflexivity].
    unfold settings_truth in Ht. destruct (h !! l) as [d|]; [|reflexivity].
    apply negb_false_iff, bool_decide_eq_true in Ht. now subst d.
Qed.

(** ** The constructor of [TrainerEnvironment] *)


Lemma training_update_idempotent (d : Dict) :
  training_update (training_update d) = training_update d.
Proof.
  apply map_eq. intros k. unfold training_update.
  rewrite !lookup_insert. repeat case_decide; reflexivity.
Qed.

(** X7: constructing a second trainer with the dictionary a first one has
    updated changes nothing any more: the update of the settings is
    idempotent. *)
Theorem TrainerEnvironment_init_twice (c c' : option Controller) (l : loc)
    (scenario scenario' : PyVal) (h : Heap) (d : Dict) :
  h !! l = Some d ->
  d <> ∅ ->
  let h1 := snd (TrainerEnvironment_init c (Some l) scenario h) in
  snd (TrainerEnvironment_init c' (Some l) scenario' h1) = h1.
Proof.
  intros Hl Hd h1.
  assert (Hh1 : h1 = <[l := training_update d]> h).
  { subst h1. rewrite TrainerEnvironment_init_result.
    rewrite (settings_or_new_kept l h d Hl Hd). simpl.
    now rewrite (lookup_total_correct _ _ _ Hl). }
  rewrite TrainerEnvironment_init_result.
  assert (Hl1 : h1 !! l = Some (training_update d))
    by (rewrite Hh1; apply lookup_insert_eq).
  rewrite (settings_or_new_kept l h1 _ Hl1 (training_update_nonempty d)).
  simpl. rewrite (lookup_total_correct _ _ _ Hl1).
  rewrite training_update_idempotent. now apply insert_id.
Qed.

(** X8: when the caller gives no settings, or an empty dictionary, the
    trainer works on a dictionary of its own: no dictionary of the caller
    changes, and the base game of an accepted controller is built from the
    five training settings alone. *)
Theorem TrainerEnvironment_init_own_settings (c : option Controller)
    (settings : option loc) (scenario : PyVal) (h : Heap) (l : loc) :
  settings_truth settings h = false ->
  is_Some (h !! l) ->
  snd (TrainerEnvironment_init c settings scenario h) !! l = h !! l
  /\ (forall c1 c2,
        py_bool c = (Ok true, c1) ->
        hasattr_actions c1 = (Ok true, c2) ->
        fst (TrainerEnvironment_init c settings scenario h)
        = Ok {| controller := c2; time_elapsed := VInt 0;
                base := AsteroidGame_init (training_update ∅) scenario |}).
Proof.
  intros Hf Hl.
  rewrite TrainerEnvironment_init_result.
  rewrite (settings_or_new_false settings h Hf). simpl.
  rewrite lookup_total_insert_eq. split.
  - rewrite !lookup_insert_ne by now apply fresh_not_allocated.
    reflexivity.
  - intros c1 c2 Hb Ha. now rewrite (controller_checks_accepts c c1 c2 Hb Ha).
Qed.

(** ** The state dictionary *)

(** X9: the dictionary [data] returns has the four keys frame,
    map_dimensions, asteroids and bullets and no other; frame is the frame
    counter of the score, map_dimensions is the size of the window, and the
    asteroids entry lists the states of the asteroids in the order of the
    asteroid list, one per asteroid. *)
Theorem data_entries (g : Game) :
  dom (data g)
  = ({["frame"; "map_dimensions"; "asteroids"; "bullets"]} : gset string)
  /\ data g !! "frame" = Some (VInt (AsteroidGame.frame_count (base g)))
  /\ data g !! "map_dimensions" = Some (AsteroidGame.size (base g))
  /\ exists states : list PyVal,
       data g !! "asteroids" = Some (VTuple states)
       /\ length states = length (AsteroidGame.asteroid_list (base g))
       /\ forall i : nat,
            states !! i = state <$> AsteroidGame.asteroid_list (base g) !! i.
Proof.
  split; [|split; [|split]].
  - unfold data. rewrite !dom_insert_L, dom_empty_L. set_solver.
  - unfold data. now simplify_map_eq.
  - unfold data. now simplify_map_eq.
  - exists (state <$> AsteroidGame.asteroid_list (base g)).
    split; [apply data_asteroids|]. split; [apply length_fmap|].
    intros i. apply list_lookup_fmap.
Qed.

(** ** A frame without the controller *)

(** X13: a game whose stored controller is false ([None], or an object
    whose truth test answers [False] at that moment) plays its frame
    without the controller, with or without key presses: [on_update] is
    the update of the base class alone and raises nothing; the player's
    sprite, the console and [time_elapsed] are as before, and so is the
    controller, but for what its own truth test did to it when the guard
    asked (with a key pressed the guard does not ask). *)
Theorem on_update_without_controller (dt : float) (m : Machine)
    (c' : option Controller) :
  py_bool (controller (self m)) = (Ok false, c') ->
  on_update dt m
  = (Ok tt,
     advanced dt
       (match AsteroidGame.active_key_presses (base (self m)) with
        | [] => with_controller c' m
        | _ :: _ => m
        end))
  /\ base (self (snd (on_update dt m)))
     = AsteroidGame_on_update dt (base (self m))
  /\ (controller (self (snd (on_update dt m))) = c'
      \/ controller (self (snd (on_update dt m))) = controller (self m)).
Proof.
  intros Hb. rewrite (on_update_without_controller_aux dt m c' Hb).
  split; [reflexivity|].
  destruct (AsteroidGame.active_key_presses (base (self m))); simpl.
  - split; [reflexivity|now left].
  - split; [reflexivity|now right].
Qed.

End Further.

(** * The further properties at work *)

Section FurtherRuns.
Import Demo.
#[local] Existing Instance engine.

(** The pilot's game, from the caller's settings. *)
Lemma FuzzyAsteroidGame_init_settings_run :
  py_bool (Some pilot) = (Ok true, Some pilot)
  /\ hasattr_actions (Some pilot) = (Ok true, Some pilot)
  /\ fst (FuzzyAsteroidGame_init (Some pilot) (Some 1%positive) VNone
            caller_heap)
     = Ok {| controller := Some pilot; time_elapsed := VInt 0;
             base := AsteroidGame_init
                       (default ∅ (caller_heap !! 1%positive)) VNone |}.
Proof.
  assert (Hb : py_bool (Some pilot) = (Ok true, Some pilot)) by reflexivity.
  assert (Ha : hasattr_actions (Some pilot) = (Ok true, Some pilot))
    by reflexivity.
  split; [exact Hb|]. split; [exact Ha|].
  exact (FuzzyAsteroidGame_init_settings (Some pilot) (Some pilot) (Some pilot)
           (Some 1%positive) VNone caller_heap Hb Ha).
Defined.

(** A second trainer, without a controller, on the dictionary of a
    first. *)
Lemma TrainerEnvironment_init_twice_run :
  caller_heap !! 1%positive = Some caller_settings
  /\ caller_settings <> ∅
  /\ snd (TrainerEnvironment_init None (Some 1%positive) VNone
            (snd (TrainerEnvironment_init (Some pilot) (Some 1%positive) VNone
                    caller_heap)))
     = snd (TrainerEnvironment_init (Some pilot) (Some 1%positive) VNone
              caller_heap).
Proof.
  assert (Hl : caller_heap !! 1%positive = Some caller_settings)
    by apply lookup_insert_eq.
  assert (Hd : caller_settings <> ∅) by apply insert_non_empty.
  split; [exact Hl|]. split; [exact Hd|].
  exact (TrainerEnvironment_init_twice (Some pilot) None 1%positive VNone VNone
           caller_heap caller_settings Hl Hd).
Defined.

(** A trainer for a caller whose dictionary is empty. *)
Lemma TrainerEnvironment_init_own_settings_run :
  settings_truth (Some 1%positive) bare_heap = false
  /\ is_Some (bare_heap !! 1%positive)
  /\ snd (TrainerEnvironment_init (Some pilot) (Some 1%positive) VNone
            bare_heap) !! 1%positive = bare_heap !! 1%positive
  /\ fst (TrainerEnvironment_init (Some pilot) (Some 1%positive) VNone
            bare_heap)
     = Ok {| controller := Some pilot; time_elapsed := VInt 0;
             base := AsteroidGame_init (training_update ∅) VNone |}.
Proof.
  assert (Hf : settings_truth (Some 1%positive) bare_heap = false)
    by (vm_compute; reflexivity).
  assert (Hl : is_Some (bare_heap !! 1%positive))
    by (exists ∅; apply lookup_insert_eq).
  assert (Hb : py_bool (Some pilot) = (Ok true, Some pilot)) by reflexivity.
  assert (Ha : hasattr_actions (Some pilot) = (Ok true, Some pilot))
    by reflexivity.
  destruct (TrainerEnvironment_init_own_settings (Some pilot) (Some 1%positive)
              VNone bare_heap 1%positive Hf Hl) as [Hheap Hgame].
  split; [exact Hf|]. split; [exact Hl|]. split; [exact Hheap|].
  exact (Hgame (Some pilot) (Some pilot) Hb Ha).
Defined.

(** A frame of a game whose controller is false. *)
Lemma on_update_without_controller_run :
  let m := boot (game_of hollow (world [rock] [] [])) in
  py_bool (controller (self m)) = (Ok false, Some hollow)
  /\ on_update default_delta_time m = (Ok tt, advanced default_delta_time m)
  /\ AsteroidGame.frame_count
       (base (self (snd (on_update default_delta_time m)))) = 1.
Proof.
  intros m.
  assert (Hb : py_bool (controller (self m)) = (Ok false, Some hollow))
    by reflexivity.
  destruct (on_update_without_controller default_delta_time m (Some hollow) Hb)
    as (Hrun & Hbase & _).
  split; [exact Hb|]. split; [exact Hrun|].
  rewrite Hbase. reflexivity.
Defined.

End FurtherRuns.
